(** * webtool: the route handlers of the search front end

    A shallow embedding of [src/webtool/webtool.py].  The module is a
    Flask application: eight URL rules bound to seven view functions that
    read the query string, optionally call a [SearchClient] and render a
    template.  The views are embedded one by one, statement by statement;
    the collaborators the module imports ([services.SearchClient],
    [forms.SearchForm], Flask's [render_template]) are traced as events. *)

From stdpp Require Import base strings gmap list.
From Stdlib Require Import ZArith Lia Ascii String.

Local Open Scope Z_scope.
Local Open Scope string_scope.

(** ** Python values *)

(** The values the views handle: [None], the strings of the query
    string, the integer literals of the source, and the structured data a
    client hands back ([meta], [facets], [docs], [doc]). *)
#[local] Set Warnings "-register-all".
Inductive pyval : Type :=
| PNone
| PInt (z : Z)
| PStr (s : string)
| PList (items : list pyval)
| PDict (entries : list (string * pyval)).

(** Python's truth test, as used by [if q:] and [page if page else 1]. *)
Definition truthy (v : pyval) : bool :=
  match v with
  | PNone => false
  | PInt z => negb (Z.eqb z 0)
  | PStr s => negb (String.eqb s "")
  | PList items => match items with [] => false | _ => true end
  | PDict entries => match entries with [] => false | _ => true end
  end.

(** [d.get(key)] on a dict of strings: the value, or [None]. *)
Definition dict_get (d : gmap string string) (key : string) : pyval :=
  match d !! key with
  | Some s => PStr s
  | None => PNone
  end.

(** ** Exceptions *)

(** What a statement of the module can raise: [KeyError] from a
    subscript of [app.config], an HTTP exception carrying its status code
    (werkzeug's [HTTPException]), werkzeug's [BadRequestKeyError] (the
    HTTP exception, of status 400, that a subscript of a request
    dictionary raises on a missing key), or any other exception, kept
    with its message.  [HTTPException code] stands for the HTTP
    exceptions that are no [BadRequestKeyError]. *)
Inductive exn : Type :=
| KeyError (key : string)
| HTTPException (code : Z)
| Exception (msg : string)
| BadRequestKeyError (key : string).

(** ** Requests, clients and events *)

Inductive Method : Type := GET | POST.

#[global] Instance Method_eq_dec : EqDecision Method.
Proof. solve_decision. Defined.

(** [flask.request]: the method, the query string ([request.args]) and
    the body fields ([request.form]). *)
Record Request : Type := mkRequest {
  method : Method;
  args : gmap string string;
  form : gmap string string
}.

(** A [SearchClient] object: the two constructor arguments it was built
    from. *)
Record Client : Type := mkClient {
  solr_url : pyval;
  num_recs_per_page : pyval
}.

(** The operations the views invoke on a client. *)
Inductive Operation : Type :=
| Get (id : pyval)
| SearchIndex0 (q page caller version : pyval)
| SearchIndex1 (q fk fa page caller version : pyval).

(** What the module can do to the names it imports from [forms] and
    [services]. *)
Inductive event : Type :=
| ENew (c : Client)
| ECall (c : Client) (op : Operation)
| EValidate (raw : gmap string string).

(** The value of [render_template(name, **context)]: the template's name
    and the keyword arguments. *)
Record Response : Type := mkResponse {
  template : string;
  context : list (string * pyval)
}.

(** ** The monad of a view: a trace of events and a value or an exception *)

Record M (A : Type) : Type := mkM {
  trace : list event;
  outcome : exn + A
}.
Arguments mkM {A} _ _.
Arguments trace {A} _.
Arguments outcome {A} _.

#[global] Instance M_ret : MRet M := fun A a => mkM [] (inr a).

#[global] Instance M_bind : MBind M := fun A B f m =>
  match outcome m with
  | inl e => mkM (trace m) (inl e)
  | inr a => mkM (trace m ++ trace (f a)) (outcome (f a))
  end.

Definition raise {A : Type} (e : exn) : M A := mkM [] (inl e).

Definition emit (ev : event) : M unit := mkM [ev] (inr tt).

Definition lift {A : Type} (r : exn + A) : M A := mkM [] r.

(** ** The services module, a parameter *)

(** [services.py] is not among the sources: the behaviour of the three
    methods is a parameter.  Each answers with a value or raises. *)
Record Services : Type := mkServices {
  get_impl : Client -> pyval -> exn + pyval;
  search_index0_impl :
    Client -> pyval -> pyval -> pyval -> pyval -> exn + (pyval * pyval);
  search_index1_impl :
    Client -> pyval -> pyval -> pyval -> pyval -> pyval -> pyval ->
    exn + (pyval * pyval * pyval)
}.

Section Webtool.

(** [app.config], filled from [app.cfg] at start-up and read-only
    afterwards, and the services implementation. *)
Variable app_config : gmap string pyval.
Variable services : Services.

(** [app.config[key]]: a missing key raises [KeyError]. *)
Definition config (key : string) : M pyval :=
  match app_config !! key with
  | Some v => mret v
  | None => raise (KeyError key)
  end.

(** [SearchClient(solr_url, num_recs_per_page)] *)
Definition SearchClient (url n : pyval) : M Client :=
  let c := mkClient url n in
  emit (ENew c) ;; mret c.

(** [client.get(id)] *)
Definition get (c : Client) (id : pyval) : M pyval :=
  emit (ECall c (Get id)) ;; lift (get_impl services c id).

(** [client.search_index0(q, page, caller, version)] *)
Definition search_index0 (c : Client) (q page caller version : pyval)
  : M (pyval * pyval) :=
  emit (ECall c (SearchIndex0 q page caller version)) ;;
  lift (search_index0_impl services c q page caller version).

(** [client.search_index1(q, fk, fa, page, caller, version)] *)
Definition search_index1 (c : Client) (q fk fa page caller version : pyval)
  : M (pyval * pyval * pyval) :=
  emit (ECall c (SearchIndex1 q fk fa page caller version)) ;;
  lift (search_index1_impl services c q fk fa page caller version).

Definition render_template (name : string) (ctx : list (string * pyval))
  : M Response :=
  mret (mkResponse name ctx).

(** ** The views *)

(** [index], lines 11-14 *)
Definition index (request : Request) : M Response :=
  render_template "index.html" [].

(** [content], lines 17-22 *)
Definition content (request : Request) : M Response :=
  let id := dict_get (args request) "id" in
  url ← config "SOLR_INDEX_0";
  n ← config "NUM_RECS_PER_PAGE";
  client ← SearchClient url n;
  doc ← get client id;
  render_template "content.html" [("doc", doc)].

(** [search0], lines 25-34 *)
Definition search0 (request : Request) : M Response :=
  let '(meta, docs) := (PNone, PNone) in
  let q := dict_get (args request) "q" in
  let page := dict_get (args request) "page" in
  let page := if truthy page then page else PInt 1 in
  '(meta, docs) ←
    (if truthy q then
       url ← config "SOLR_INDEX_0";
       n ← config "NUM_RECS_PER_PAGE";
       client ← SearchClient url n;
       search_index0 client q page (PStr "search0") (PInt 0)
     else mret (meta, docs));
  render_template "search0.html" [("meta", meta); ("docs", docs)].

(** [search1], lines 37-46 *)
Definition search1 (request : Request) : M Response :=
  let '(meta, docs) := (PNone, PNone) in
  let q := dict_get (args request) "q" in
  let page := dict_get (args request) "page" in
  let page := if truthy page then page else PInt 1 in
  '(meta, docs) ←
    (if truthy q then
       url ← config "SOLR_INDEX_0";
       n ← config "NUM_RECS_PER_PAGE";
       client ← SearchClient url n;
       search_index0 client q page (PStr "search1") (PInt 1)
     else mret (meta, docs));
  render_template "search0.html" [("meta", meta); ("docs", docs)].

(** [search2], lines 49-58 *)
Definition search2 (request : Request) : M Response :=
  let '(meta, docs) := (PNone, PNone) in
  let q := dict_get (args request) "q" in
  let page := dict_get (args request) "page" in
  let page := if truthy page then page else PInt 1 in
  '(meta, docs) ←
    (if truthy q then
       url ← config "SOLR_INDEX_0";
       n ← config "NUM_RECS_PER_PAGE";
       client ← SearchClient url n;
       search_index0 client q page (PStr "search2") (PInt 2)
     else mret (meta, docs));
  render_template "search0.html" [("meta", meta); ("docs", docs)].

(** [search3], lines 61-72 *)
Definition search3 (request : Request) : M Response :=
  let '(meta, facets, docs) := (PNone, PNone, PNone) in
  let q := dict_get (args request) "q" in
  let fk := dict_get (args request) "fk" in
  let fa := dict_get (args request) "fa" in
  let page := dict_get (args request) "page" in
  let page := if truthy page then page else PInt 1 in
  '(meta, facets, docs) ←
    (if truthy q then
       url ← config "SOLR_INDEX_1";
       n ← config "NUM_RECS_PER_PAGE";
       client ← SearchClient url n;
       search_index1 client q fk fa page (PStr "search3") (PInt 1)
     else mret (meta, facets, docs));
  render_template "search1.html"
    [("meta", meta); ("facets", facets); ("docs", docs)].

(** [search4], lines 75-86 *)
Definition search4 (request : Request) : M Response :=
  let '(meta, facets, docs) := (PNone, PNone, PNone) in
  let q := dict_get (args request) "q" in
  let fk := dict_get (args request) "fk" in
  let fa := dict_get (args request) "fa" in
  let page := dict_get (args request) "page" in
  let page := if truthy page then page else PInt 1 in
  '(meta, facets, docs) ←
    (if truthy q then
       url ← config "SOLR_INDEX_1";
       n ← config "NUM_RECS_PER_PAGE";
       client ← SearchClient url n;
       search_index1 client q fk fa page (PStr "search4") (PInt 3)
     else mret (meta, facets, docs));
  render_template "search1.html"
    [("meta", meta); ("facets", facets); ("docs", docs)].

(** ** The URL map *)

(** The [@app.route] decorators, in source order: rule, accepted methods
    (Flask's default is [GET] alone) and view. *)
Definition url_map : list (string * list Method * (Request -> M Response)) :=
  [ ("/", [GET], index);
    ("/index", [GET], index);
    ("/content", [GET], content);
    ("/search0", [GET; POST], search0);
    ("/search1", [GET; POST], search1);
    ("/search2", [GET; POST], search2);
    ("/search3", [GET; POST], search3);
    ("/search4", [GET; POST], search4) ].

Fixpoint match_rule (rules : list (string * list Method * (Request -> M Response)))
  (path : string) : option (list Method * (Request -> M Response)) :=
  match rules with
  | [] => None
  | (rule, methods, view) :: rest =>
      if String.eqb rule path then Some (methods, view)
      else match_rule rest path
  end.

(** Flask's request dispatch: an unknown path is 404 Not Found, a known
    path with a method outside its list is 405 Method Not Allowed,
    otherwise the view runs. *)
Definition dispatch_request (path : string) (request : Request) : M Response :=
  match match_rule url_map path with
  | None => raise (HTTPException 404)
  | Some (methods, view) =>
      if bool_decide (method request ∈ methods) then view request
      else raise (HTTPException 405)
  end.

End Webtool.

(** ** Serving a request *)

(** What the WSGI layer sends back for the result of a dispatch: the
    rendered page, the error page of an HTTP exception, or, for an
    exception that is left unhandled, the interactive debugger's
    traceback page when the application runs in debug mode and the bare
    500 page when it does not.  The module registers no error handler
    and Flask's own settings ([TRAP_HTTP_EXCEPTIONS],
    [TRAP_BAD_REQUEST_ERRORS], [PROPAGATE_EXCEPTIONS], [TESTING]) are at
    their defaults. *)
Inductive Body : Type :=
| Rendered (resp : Response)
| ErrorPage (code : Z)
| Traceback (e : exn).

Record HttpResponse : Type := mkHttp {
  status : Z;
  body : Body
}.

Definition is_http_exception (e : exn) : bool :=
  match e with
  | HTTPException _ | BadRequestKeyError _ => true
  | KeyError _ | Exception _ => false
  end.

Definition http_code (e : exn) : Z :=
  match e with
  | HTTPException code => code
  | BadRequestKeyError _ => 400
  | KeyError _ | Exception _ => 500
  end.

(** [Flask.trap_http_exception]: with the default settings, an HTTP
    exception is trapped, and so treated like any unhandled exception,
    exactly when it is a [BadRequestKeyError] and the application is in
    debug mode. *)
Definition trap_http_exception (debug : bool) (e : exn) : bool :=
  match e with
  | BadRequestKeyError _ => debug
  | _ => false
  end.

(** [Flask.handle_user_exception] followed by [Flask.handle_exception]:
    an HTTP exception that is not trapped is its own response; anything
    else is re-raised into the debugger in debug mode and answered with
    the bare 500 page otherwise. *)
Definition finalize_request (debug : bool) (r : exn + Response) : HttpResponse :=
  match r with
  | inr resp => mkHttp 200 (Rendered resp)
  | inl e =>
      if is_http_exception e && negb (trap_http_exception debug e)
      then mkHttp (http_code e) (ErrorPage (http_code e))
      else if debug then mkHttp 500 (Traceback e)
      else mkHttp 500 (ErrorPage 500)
  end.

Definition wsgi_app (debug : bool) (app_config : gmap string pyval)
  (services : Services) (path : string) (request : Request) : HttpResponse :=
  finalize_request debug (outcome (dispatch_request app_config services path request)).



(** ** Observations on traces and responses *)

(** The client invocations of a trace, in order. *)
Fixpoint calls (t : list event) : list (Client * Operation) :=
  match t with
  | [] => []
  | ECall c op :: rest => (c, op) :: calls rest
  | _ :: rest => calls rest
  end.

Inductive OpKind : Type := KGet | KPlain | KFaceted.

Definition op_kind (op : Operation) : OpKind :=
  match op with
  | Get _ => KGet
  | SearchIndex0 _ _ _ _ => KPlain
  | SearchIndex1 _ _ _ _ _ _ => KFaceted
  end.

(** The search text, page, view label and trailing number of a search
    invocation. *)
Definition q_of (op : Operation) : option pyval :=
  match op with
  | Get _ => None
  | SearchIndex0 q _ _ _ => Some q
  | SearchIndex1 q _ _ _ _ _ => Some q
  end.

Definition page_of (op : Operation) : option pyval :=
  match op with
  | Get _ => None
  | SearchIndex0 _ page _ _ => Some page
  | SearchIndex1 _ _ _ page _ _ => Some page
  end.

Definition caller_of (op : Operation) : option pyval :=
  match op with
  | Get _ => None
  | SearchIndex0 _ _ caller _ => Some caller
  | SearchIndex1 _ _ _ _ caller _ => Some caller
  end.

(** An operation with its view label and trailing number blanked. *)
Definition erase_label (op : Operation) : Operation :=
  match op with
  | Get id => Get id
  | SearchIndex0 q page _ _ => SearchIndex0 q page PNone PNone
  | SearchIndex1 q fk fa page _ _ => SearchIndex1 q fk fa page PNone PNone
  end.

Definition erase_event (ev : event) : event :=
  match ev with
  | ECall c op => ECall c (erase_label op)
  | _ => ev
  end.

(** [context[key]] of a rendered page. *)
Fixpoint context_get (ctx : list (string * pyval)) (key : string) : option pyval :=
  match ctx with
  | [] => None
  | (k, v) :: rest => if String.eqb k key then Some v else context_get rest key
  end.

(** The five search rules, and the name of the view behind a rule: the
    rule without its leading slash. *)
Definition search_rules : list string :=
  ["/search0"; "/search1"; "/search2"; "/search3"; "/search4"].

Definition plain_rules : list string := ["/search0"; "/search1"; "/search2"].

Definition faceted_rules : list string := ["/search3"; "/search4"].

Definition view_name (rule : string) : string :=
  match rule with
  | String _ name => name
  | EmptyString => EmptyString
  end.

(** The [q] parameter is absent or is the empty string. *)
Definition blank_q (request : Request) : Prop :=
  args request !! "q" = None ∨ args request !! "q" = Some "".

(** The expression of [page = page if page else 1] on a request. *)
Definition page_passed (request : Request) : pyval :=
  let page := dict_get (args request) "page" in
  if truthy page then page else PInt 1.

(** The page with nothing to show: every context variable is [None]. *)
Definition empty_state (resp : Response) : Prop :=
  Forall (λ kv, kv.2 = PNone) (context resp).

(** ** The statements of the specification *)

(** The single parameterised handler the specification sees behind the
    plain routes: one body, taking the view label and the trailing
    number. *)
Definition plain_view (app_config : gmap string pyval) (services : Services)
  (caller : string) (version : Z) (request : Request) : M Response :=
  let q := dict_get (args request) "q" in
  if truthy q then
    url ← config app_config "SOLR_INDEX_0";
    n ← config app_config "NUM_RECS_PER_PAGE";
    client ← SearchClient url n;
    '(meta, docs) ←
      search_index0 services client q (page_passed request) (PStr caller) (PInt version);
    render_template "search0.html" [("meta", meta); ("docs", docs)]
  else render_template "search0.html" [("meta", PNone); ("docs", PNone)].

(** The same for the faceted routes. *)
Definition faceted_view (app_config : gmap string pyval) (services : Services)
  (caller : string) (version : Z) (request : Request) : M Response :=
  let q := dict_get (args request) "q" in
  if truthy q then
    url ← config app_config "SOLR_INDEX_1";
    n ← config app_config "NUM_RECS_PER_PAGE";
    client ← SearchClient url n;
    '(meta, facets, docs) ←
      search_index1 services client q (dict_get (args request) "fk")
        (dict_get (args request) "fa") (page_passed request)
        (PStr caller) (PInt version);
    render_template "search1.html"
      [("meta", meta); ("facets", facets); ("docs", docs)]
  else render_template "search1.html"
      [("meta", PNone); ("facets", PNone); ("docs", PNone)].

(** A services implementation whose searches do not look at the view
    label or the trailing number. *)
Definition label_blind (services : Services) : Prop :=
  (∀ c q page l1 v1 l2 v2,
     search_index0_impl services c q page l1 v1 =
     search_index0_impl services c q page l2 v2) ∧
  (∀ c q fk fa page l1 v1 l2 v2,
     search_index1_impl services c q fk fa page l1 v1 =
     search_index1_impl services c q fk fa page l2 v2).

(** The page of the specification's Input Form: the positive integer a
    string of decimal digits denotes, and 1 for everything else. *)
Definition digit_of (c : ascii) : option Z :=
  let n := Z.of_nat (nat_of_ascii c) in
  if Z.leb 48 n && Z.leb n 57 then Some (n - 48) else None.

Fixpoint decimal (acc : Z) (s : string) : option Z :=
  match s with
  | EmptyString => Some acc
  | String c rest =>
      match digit_of c with
      | Some d => decimal (10 * acc + d) rest
      | None => None
      end
  end.

Definition parse_positive (s : string) : option Z :=
  match s with
  | EmptyString => None
  | _ => match decimal 0 s with
         | Some n => if Z.leb 1 n then Some n else None
         | None => None
         end
  end.

Definition parsed_page (raw : pyval) : Z :=
  match raw with
  | PStr s => default 1 (parse_positive s)
  | _ => 1
  end.

(** "The effective page value passed onward is a positive integer": every
    search invocation of the trace carries the parsed page. *)
Definition passes_parsed_page (request : Request) (t : list event) : Prop :=
  ∀ c op, ECall c op ∈ t →
    page_of op = Some (PInt (parsed_page (dict_get (args request) "page"))).

(** "Validates via the Input Form before invoking the Search Client":
    every client invocation of the trace comes after a validation. *)
Definition validates_before_search (t : list event) : Prop :=
  ∀ (i : nat) c op, t !! i = Some (ECall c op) →
    ∃ (j : nat) raw, (j < i)%nat ∧ t !! j = Some (EValidate raw).


(** ** The search client of the specification *)

Module SearchClientSpec.

(** Modelled from the spec: [services.py], the module that defines
    [SearchClient.search_index0] and [search_index1], is not among the
    sources.  Section 3 gives the query, section 4.1 the request a search
    issues: [pageSize] results starting at offset [(page-1)*pageSize], and
    for the faceted search the filter when key and value are both present
    and a facet breakdown on the key. *)
Record Query : Type := mkQuery {
  text : string;
  page : Z;
  facetKey : option string;
  facetValue : option string
}.

Record IndexRequest : Type := mkIndexRequest {
  query_text : string;
  offset : Z;
  limit : Z;
  filter : option (string * string);
  facet_on : option string
}.

Definition searchPlain (query : Query) (pageSize : Z) : IndexRequest :=
  {| query_text := text query;
     offset := (page query - 1) * pageSize;
     limit := pageSize;
     filter := None;
     facet_on := None |}.

Definition searchFaceted (query : Query) (pageSize : Z) : IndexRequest :=
  {| query_text := text query;
     offset := (page query - 1) * pageSize;
     limit := pageSize;
     filter := match facetKey query, facetValue query with
               | Some k, Some v => Some (k, v)
               | _, _ => None
               end;
     facet_on := facetKey query |}.

End SearchClientSpec.


(** ** Sample deployments *)

Definition sample_config : gmap string pyval :=
  <["SOLR_INDEX_0" := PStr "http://localhost:8983/solr/index0"]>
  (<["SOLR_INDEX_1" := PStr "http://localhost:8983/solr/index1"]>
  (<["NUM_RECS_PER_PAGE" := PInt 10]> ∅)).

(** The clients the views build under the sample configuration. *)
Definition index0_client : Client :=
  mkClient (PStr "http://localhost:8983/solr/index0") (PInt 10).

Definition index1_client : Client :=
  mkClient (PStr "http://localhost:8983/solr/index1") (PInt 10).

(** A client that answers every call with data echoing the query. *)
Definition echo_services : Services :=
  {| get_impl := λ _ id, inr (PDict [("id", id)]);
     search_index0_impl := λ _ q page _ _,
       inr (PDict [("q", q); ("page", page)], PList [PDict [("id", PStr "doc-1")]]);
     search_index1_impl := λ _ q fk _ page _ _,
       inr (PDict [("q", q); ("page", page)],
            PDict [("field", fk)], PList [PDict [("id", PStr "doc-1")]]) |}.

(** A client whose index is unreachable: every call raises. *)
Definition down_services : Services :=
  {| get_impl := λ _ _, inl (Exception "ConnectionError: solr unreachable");
     search_index0_impl := λ _ _ _ _ _,
       inl (Exception "ConnectionError: solr unreachable");
     search_index1_impl := λ _ _ _ _ _ _ _,
       inl (Exception "ConnectionError: solr unreachable") |}.


Definition query_string (params : list (string * string)) : gmap string string :=
  list_to_map params.

(** Sample requests: [POST /search3?q=], [GET /search0?q=cats&page=2],
    [GET /search0?q=cats&page=abc], [GET /search0?q=cats&page=0] and
    [GET /content?id=doc-404]. *)
Definition blank_request : Request :=
  mkRequest POST (query_string [("q", "")]) ∅.

Definition cats_request : Request :=
  mkRequest GET (query_string [("q", "cats"); ("page", "2")]) ∅.

Definition cats_abc_request : Request :=
  mkRequest GET (query_string [("q", "cats"); ("page", "abc")]) ∅.

Definition cats_zero_request : Request :=
  mkRequest GET (query_string [("q", "cats"); ("page", "0")]) ∅.

Definition doc_request : Request :=
  mkRequest GET (query_string [("id", "doc-404")]) ∅.

(** [GET /search0?q=%20]: a search text of one space. *)
Definition whitespace_request : Request :=
  mkRequest GET (query_string [("q", " ")]) ∅.


(** "Blank" as the word is used of text: nothing but white space, the
    characters [str.strip] removes. *)
Definition is_space (c : ascii) : bool :=
  let n := nat_of_ascii c in
  Nat.eqb n 32 || (Nat.leb 9 n && Nat.leb n 13).

Fixpoint is_blank (s : string) : bool :=
  match s with
  | EmptyString => true
  | String c rest => is_space c && is_blank rest
  end.

(** "The [q] parameter is absent or blank". *)
Definition absent_or_blank_q (request : Request) : Prop :=
  match args request !! "q" with
  | None => True
  | Some s => is_blank s = true
  end.

(** "The handler returns a response containing no documents and never
    invokes any Search Client operation". *)
Definition no_documents_no_client (m : M Response) : Prop :=
  trace m = [] ∧ ∃ resp, outcome m = inr resp ∧ empty_state resp.

(** The rules registered without a [methods] list or with [GET] alone,
    and the two rules of the landing page. *)
Definition get_only_rules : list string := ["/"; "/index"; "/content"].

Definition landing_rules : list string := ["/"; "/index"].

(** The client and the kind of operation of each invocation of a trace. *)
Definition bindings (t : list event) : list (Client * OpKind) :=
  map (λ co, (co.1, op_kind co.2)) (calls t).

(** * Properties *)

Ltac unfold_view :=
  unfold search0, search1, search2, search3, search4, content, index,
    plain_view, faceted_view, page_passed, config, SearchClient, get,
    search_index0, search_index1, render_template, emit, lift, raise.

(** Runs a search view: case on the truth of [q], on the configuration
    keys and on what the client answers. *)
Ltac run_view :=
  unfold_view; unfold mbind, mret, M_bind, M_ret;
  destruct (truthy (dict_get (args _) "q")); simpl; [|reflexivity];
  repeat (match goal with
          | |- context [?m !! ?k] => destruct (m !! k); simpl
          end);
  try reflexivity;
  repeat (match goal with
          | |- context [search_index0_impl ?s ?c ?q ?p ?l ?v] =>
              destruct (search_index0_impl s c q p l v) as [?|[? ?]]; simpl
          | |- context [search_index1_impl ?s ?c ?q ?fk ?fa ?p ?l ?v] =>
              destruct (search_index1_impl s c q fk fa p l v) as [?|[[? ?] ?]]; simpl
          end);
  reflexivity.

Lemma blank_q_falsy request :
  blank_q request ↔ truthy (dict_get (args request) "q") = false.
Proof.
  unfold blank_q, dict_get. destruct (args request !! "q") as [s|]; simpl.
  - destruct s as [|a s]; simpl; split; try done; try (by right).
    intros [H|H]; congruence.
  - split; [done | by left].
Qed.

Lemma search_rules_split path :
  path ∈ search_rules ↔ path ∈ plain_rules ∨ path ∈ faceted_rules.
Proof.
  unfold search_rules, plain_rules, faceted_rules.
  rewrite !elem_of_cons, !elem_of_nil. tauto.
Qed.

Section Properties.

Variable app_config : gmap string pyval.
Variable services : Services.

Local Abbreviation dispatch := (dispatch_request app_config services).
Local Abbreviation plain := (plain_view app_config services).
Local Abbreviation faceted := (faceted_view app_config services).

(** ** Each view is an instance of the parameterised one *)

Lemma search0_plain r : search0 app_config services r = plain "search0" 0 r.
Proof. run_view. Qed.

Lemma search1_plain r : search1 app_config services r = plain "search1" 1 r.
Proof. run_view. Qed.

Lemma search2_plain r : search2 app_config services r = plain "search2" 2 r.
Proof. run_view. Qed.

Lemma search3_faceted r : search3 app_config services r = faceted "search3" 1 r.
Proof. run_view. Qed.

Lemma search4_faceted r : search4 app_config services r = faceted "search4" 3 r.
Proof. run_view. Qed.

(** ** Dispatch reaches the view of the rule *)

Lemma dispatch_plain path r :
  path ∈ plain_rules → ∃ v, dispatch path r = plain (view_name path) v r.
Proof.
  unfold plain_rules. rewrite !elem_of_cons, elem_of_nil.
  intros [->|[->|[->|[]]]]; unfold dispatch_request; simpl;
    [exists 0 | exists 1 | exists 2]; destruct (method r); simpl;
    auto using search0_plain, search1_plain, search2_plain.
Qed.

Lemma dispatch_faceted path r :
  path ∈ faceted_rules → ∃ v, dispatch path r = faceted (view_name path) v r.
Proof.
  unfold faceted_rules. rewrite !elem_of_cons, elem_of_nil.
  intros [->|[->|[]]]; unfold dispatch_request; simpl;
    [exists 1 | exists 3]; destruct (method r); simpl;
    auto using search3_faceted, search4_faceted.
Qed.

Lemma dispatch_content r :
  method r = GET → dispatch "/content" r = content app_config services r.
Proof. intros H. unfold dispatch_request. simpl. by rewrite H. Qed.

(** ** What a run of the parameterised views looks like *)

Lemma plain_blank caller version r :
  truthy (dict_get (args r) "q") = false →
  plain caller version r =
  mkM [] (inr (mkResponse "search0.html" [("meta", PNone); ("docs", PNone)])).
Proof. intros H. unfold plain_view. by rewrite H. Qed.

Lemma faceted_blank caller version r :
  truthy (dict_get (args r) "q") = false →
  faceted caller version r =
  mkM [] (inr (mkResponse "search1.html"
                 [("meta", PNone); ("facets", PNone); ("docs", PNone)])).
Proof. intros H. unfold faceted_view. by rewrite H. Qed.

Lemma plain_query caller version r url n :
  truthy (dict_get (args r) "q") = true →
  app_config !! "SOLR_INDEX_0" = Some url →
  app_config !! "NUM_RECS_PER_PAGE" = Some n →
  let c := mkClient url n in
  let q := dict_get (args r) "q" in
  plain caller version r =
  mkM [ENew c; ECall c (SearchIndex0 q (page_passed r) (PStr caller) (PInt version))]
      (match search_index0_impl services c q (page_passed r)
               (PStr caller) (PInt version) with
       | inl e => inl e
       | inr (meta, docs) =>
           inr (mkResponse "search0.html" [("meta", meta); ("docs", docs)])
       end).
Proof.
  intros Hq H0 Hn. unfold plain_view. rewrite Hq. unfold config.
  rewrite H0, Hn. unfold_view. unfold mbind, mret, M_bind, M_ret. simpl.
  by destruct (search_index0_impl _ _ _ _ _ _) as [e|[meta docs]].
Qed.

Lemma faceted_query caller version r url n :
  truthy (dict_get (args r) "q") = true →
  app_config !! "SOLR_INDEX_1" = Some url →
  app_config !! "NUM_RECS_PER_PAGE" = Some n →
  let c := mkClient url n in
  let q := dict_get (args r) "q" in
  let fk := dict_get (args r) "fk" in
  let fa := dict_get (args r) "fa" in
  faceted caller version r =
  mkM [ENew c;
       ECall c (SearchIndex1 q fk fa (page_passed r) (PStr caller) (PInt version))]
      (match search_index1_impl services c q fk fa (page_passed r)
               (PStr caller) (PInt version) with
       | inl e => inl e
       | inr (meta, facets, docs) =>
           inr (mkResponse "search1.html"
                  [("meta", meta); ("facets", facets); ("docs", docs)])
       end).
Proof.
  intros Hq H1 Hn. unfold faceted_view. rewrite Hq. unfold config.
  rewrite H1, Hn. unfold_view. unfold mbind, mret, M_bind, M_ret. simpl.
  by destruct (search_index1_impl _ _ _ _ _ _ _ _) as [e|[[meta facets] docs]].
Qed.

(** Whatever the configuration, the trace of a search view is empty or
    is one construction followed by one search on the client built. *)
Lemma plain_trace caller version r :
  trace (plain caller version r) = [] ∨
  ∃ url n,
    truthy (dict_get (args r) "q") = true ∧
    app_config !! "SOLR_INDEX_0" = Some url ∧
    app_config !! "NUM_RECS_PER_PAGE" = Some n ∧
    trace (plain caller version r) =
      [ENew (mkClient url n);
       ECall (mkClient url n)
         (SearchIndex0 (dict_get (args r) "q") (page_passed r)
            (PStr caller) (PInt version))].
Proof.
  destruct (truthy (dict_get (args r) "q")) eqn:Hq.
  - destruct (app_config !! "SOLR_INDEX_0") as [url|] eqn:H0.
    + destruct (app_config !! "NUM_RECS_PER_PAGE") as [n|] eqn:Hn.
      * right. exists url, n. by rewrite (plain_query _ _ _ url n).
      * left. unfold plain_view, config. by rewrite Hq, H0, Hn.
    + left. unfold plain_view, config. by rewrite Hq, H0.
  - left. by rewrite plain_blank.
Qed.

Lemma faceted_trace caller version r :
  trace (faceted caller version r) = [] ∨
  ∃ url n,
    truthy (dict_get (args r) "q") = true ∧
    app_config !! "SOLR_INDEX_1" = Some url ∧
    app_config !! "NUM_RECS_PER_PAGE" = Some n ∧
    trace (faceted caller version r) =
      [ENew (mkClient url n);
       ECall (mkClient url n)
         (SearchIndex1 (dict_get (args r) "q") (dict_get (args r) "fk")
            (dict_get (args r) "fa") (page_passed r)
            (PStr caller) (PInt version))].
Proof.
  destruct (truthy (dict_get (args r) "q")) eqn:Hq.
  - destruct (app_config !! "SOLR_INDEX_1") as [url|] eqn:H1.
    + destruct (app_config !! "NUM_RECS_PER_PAGE") as [n|] eqn:Hn.
      * right. exists url, n. by rewrite (faceted_query _ _ _ url n).
      * left. unfold faceted_view, config. by rewrite Hq, H1, Hn.
    + left. unfold faceted_view, config. by rewrite Hq, H1.
  - left. by rewrite faceted_blank.
Qed.

Lemma plain_not_faceted path : path ∈ plain_rules → path ∈ faceted_rules → False.
Proof.
  unfold plain_rules, faceted_rules. rewrite !elem_of_cons, !elem_of_nil.
  intros [->|[->|[->|[]]]] [H|[H|[]]]; discriminate H.
Qed.

(** ** The claims on the search routes *)

(** C1 (amended): on each of the five search routes, a request whose [q]
    is absent or empty gets a rendered page whose context variables ([meta],
    [docs], and [facets] on the faceted routes) are all [None], and the
    run leaves no event: no client is built and no operation invoked. *)
Theorem blank_query_no_documents_no_client path request :
  path ∈ search_rules → blank_q request →
  trace (dispatch path request) = [] ∧
  ∃ resp, outcome (dispatch path request) = inr resp ∧
    empty_state resp ∧
    context_get (context resp) "meta" = Some PNone ∧
    context_get (context resp) "docs" = Some PNone ∧
    (path ∈ faceted_rules → context_get (context resp) "facets" = Some PNone).
Proof.
  intros Hp Hq. apply blank_q_falsy in Hq.
  apply search_rules_split in Hp as [Hp|Hp].
  - destruct (dispatch_plain _ request Hp) as [v ->].
    rewrite plain_blank by done. split; [done|].
    eexists; split; [done|]. repeat split; simpl.
    + unfold empty_state; simpl. by repeat constructor.
    + intros Hf. destruct (plain_not_faceted _ Hp Hf).
  - destruct (dispatch_faceted _ request Hp) as [v ->].
    rewrite faceted_blank by done. split; [done|].
    eexists; split; [done|]. repeat split; simpl.
    unfold empty_state; simpl. by repeat constructor.
Qed.

Lemma content_run r url n :
  app_config !! "SOLR_INDEX_0" = Some url →
  app_config !! "NUM_RECS_PER_PAGE" = Some n →
  let c := mkClient url n in
  let id := dict_get (args r) "id" in
  content app_config services r =
  mkM [ENew c; ECall c (Get id)]
      (match get_impl services c id with
       | inl e => inl e
       | inr doc => inr (mkResponse "content.html" [("doc", doc)])
       end).
Proof.
  intros H0 Hn. unfold content, config. rewrite H0, Hn.
  unfold_view. unfold mbind, mret, M_bind, M_ret. simpl.
  by destruct (get_impl _ _ _).
Qed.

(** C5: with the three configuration keys defined, a plain route
    ([/search0], [/search1], [/search2]) invokes [search_index0], and
    nothing else, on a client built from [SOLR_INDEX_0]; a faceted route
    ([/search3], [/search4]) invokes [search_index1] on a client built
    from [SOLR_INDEX_1]; [GET /content] invokes [get] on a client built
    from [SOLR_INDEX_0].  The search routes invoke it exactly when [q]
    is non-empty. *)
Theorem route_operation_index_binding path request url0 url1 n :
  app_config !! "SOLR_INDEX_0" = Some url0 →
  app_config !! "SOLR_INDEX_1" = Some url1 →
  app_config !! "NUM_RECS_PER_PAGE" = Some n →
  (path ∈ plain_rules →
   bindings (trace (dispatch path request)) =
   if truthy (dict_get (args request) "q")
   then [(mkClient url0 n, KPlain)] else []) ∧
  (path ∈ faceted_rules →
   bindings (trace (dispatch path request)) =
   if truthy (dict_get (args request) "q")
   then [(mkClient url1 n, KFaceted)] else []) ∧
  (path = "/content" → method request = GET →
   bindings (trace (dispatch path request)) = [(mkClient url0 n, KGet)]).
Proof.
  intros H0 H1 Hn. repeat split.
  - intros Hp. destruct (dispatch_plain _ request Hp) as [v ->].
    destruct (truthy (dict_get (args request) "q")) eqn:Hq.
    + by rewrite (plain_query _ _ _ url0 n).
    + by rewrite plain_blank.
  - intros Hp. destruct (dispatch_faceted _ request Hp) as [v ->].
    destruct (truthy (dict_get (args request) "q")) eqn:Hq.
    + by rewrite (faceted_query _ _ _ url1 n).
    + by rewrite faceted_blank.
  - intros -> Hm. rewrite dispatch_content by done.
    by rewrite (content_run _ url0 n).
Qed.

(** C7: every client invocation a search route makes carries the name of
    the route's own view as its label, and with a non-empty [q] and the
    configuration keys defined the route makes exactly one invocation.
    The names are ["search0"] to ["search4"]. *)
Theorem view_label_is_route_name path request :
  path ∈ search_rules →
  (∀ c op, ECall c op ∈ trace (dispatch path request) →
     caller_of op = Some (PStr (view_name path))) ∧
  (truthy (dict_get (args request) "q") = true →
   is_Some (app_config !! "SOLR_INDEX_0") →
   is_Some (app_config !! "SOLR_INDEX_1") →
   is_Some (app_config !! "NUM_RECS_PER_PAGE") →
   map (λ co, caller_of co.2) (calls (trace (dispatch path request))) =
   [Some (PStr (view_name path))]) ∧
  view_name <$> search_rules =
    ["search0"; "search1"; "search2"; "search3"; "search4"].
Proof.
  intros Hp. apply search_rules_split in Hp as [Hp|Hp].
  - destruct (dispatch_plain _ request Hp) as [v ->]. repeat split.
    + intros c op. destruct (plain_trace (view_name path) v request)
        as [->|(url & n & _ & _ & _ & ->)].
      * by intros ?%elem_of_nil.
      * rewrite !elem_of_cons, elem_of_nil. intros [H|[H|[]]]; [done|].
        by injection H as -> ->.
    + intros Hq [url0 H0] _ [n Hn]. by rewrite (plain_query _ _ _ url0 n).
  - destruct (dispatch_faceted _ request Hp) as [v ->]. repeat split.
    + intros c op. destruct (faceted_trace (view_name path) v request)
        as [->|(url & n & _ & _ & _ & ->)].
      * by intros ?%elem_of_nil.
      * rewrite !elem_of_cons, elem_of_nil. intros [H|[H|[]]]; [done|].
        by injection H as -> ->.
    + intros Hq _ [url1 H1] [n Hn]. by rewrite (faceted_query _ _ _ url1 n).
Qed.

(** C6: each search rule is registered for both [GET] and [POST], and
    the result of a dispatch (events, page or exception) is the same for
    a [POST] and a [GET] carrying the same query string, whatever their
    bodies. *)
Theorem post_equals_get path a f1 f2 :
  path ∈ search_rules →
  (∃ methods view,
     match_rule (url_map app_config services) path = Some (methods, view) ∧
     GET ∈ methods ∧ POST ∈ methods ∧
     dispatch path (mkRequest GET a f2) = view (mkRequest GET a f2)) ∧
  dispatch path (mkRequest POST a f1) = dispatch path (mkRequest GET a f2).
Proof.
  unfold search_rules. rewrite !elem_of_cons, elem_of_nil.
  intros [->|[->|[->|[->|[->|[]]]]]];
    (split; [eexists _, _; simpl; repeat split; set_solver | ]);
    unfold dispatch_request; simpl; reflexivity.
Qed.

(** C9: with the configuration keys defined, [GET /content] always
    builds a client and invokes [get] on it with the raw [id] parameter,
    which is [None] when the parameter is absent; nothing is validated,
    and the view ends with whatever [get] does: the exception it raises,
    or the page rendered from the document it returns. *)
Theorem content_always_gets_raw_id request url n :
  method request = GET →
  app_config !! "SOLR_INDEX_0" = Some url →
  app_config !! "NUM_RECS_PER_PAGE" = Some n →
  let c := mkClient url n in
  let id := dict_get (args request) "id" in
  trace (dispatch "/content" request) = [ENew c; ECall c (Get id)] ∧
  (args request !! "id" = None → id = PNone) ∧
  (∀ s, args request !! "id" = Some s → id = PStr s) ∧
  (∀ raw, EValidate raw ∉ trace (dispatch "/content" request)) ∧
  (∀ e, get_impl services c id = inl e →
        outcome (dispatch "/content" request) = inl e) ∧
  (∀ doc, get_impl services c id = inr doc →
        outcome (dispatch "/content" request) =
        inr (mkResponse "content.html" [("doc", doc)])).
Proof.
  intros Hm H0 Hn c id. rewrite dispatch_content by done.
  rewrite (content_run _ url n) by done. fold c id. simpl.
  repeat split.
  - intros H. subst id. unfold dict_get. by rewrite H.
  - intros s H. subst id. unfold dict_get. by rewrite H.
  - intros raw. rewrite !elem_of_cons, elem_of_nil. by intros [?|[?|[]]].
  - by intros e ->.
  - by intros doc ->.
Qed.

(** ** The page passed to the client *)

Lemma page_passed_default request :
  args request !! "page" = None ∨ args request !! "page" = Some "" →
  page_passed request = PInt 1.
Proof. unfold page_passed, dict_get. by intros [->| ->]. Qed.

Lemma page_passed_raw request s :
  args request !! "page" = Some s → s ≠ "" → page_passed request = PStr s.
Proof.
  unfold page_passed, dict_get. intros -> Hs. simpl.
  by destruct s as [|a s].
Qed.

Lemma search_calls path request :
  path ∈ search_rules →
  ∀ c op, ECall c op ∈ trace (dispatch path request) →
    q_of op = Some (dict_get (args request) "q") ∧
    page_of op = Some (page_passed request).
Proof.
  intros Hp c op. apply search_rules_split in Hp as [Hp|Hp].
  - destruct (dispatch_plain _ request Hp) as [v ->].
    destruct (plain_trace (view_name path) v request)
      as [->|(url & n & _ & _ & _ & ->)].
    + by intros ?%elem_of_nil.
    + rewrite !elem_of_cons, elem_of_nil. intros [H|[H|[]]]; [done|].
      by injection H as -> ->.
  - destruct (dispatch_faceted _ request Hp) as [v ->].
    destruct (faceted_trace (view_name path) v request)
      as [->|(url & n & _ & _ & _ & ->)].
    + by intros ?%elem_of_nil.
    + rewrite !elem_of_cons, elem_of_nil. intros [H|[H|[]]]; [done|].
      by injection H as -> ->.
Qed.

(** With a non-empty [q] and the configuration keys defined, a search
    route builds one client and invokes one search on it. *)
Lemma search_trace path request :
  path ∈ search_rules →
  truthy (dict_get (args request) "q") = true →
  is_Some (app_config !! "SOLR_INDEX_0") →
  is_Some (app_config !! "SOLR_INDEX_1") →
  is_Some (app_config !! "NUM_RECS_PER_PAGE") →
  ∃ c op, trace (dispatch path request) = [ENew c; ECall c op].
Proof.
  intros Hp Hq [url0 H0] [url1 H1] [n Hn].
  apply search_rules_split in Hp as [Hp|Hp].
  - destruct (dispatch_plain _ request Hp) as [v ->].
    rewrite (plain_query _ _ _ url0 n) by done. by eexists _, _.
  - destruct (dispatch_faceted _ request Hp) as [v ->].
    rewrite (faceted_query _ _ _ url1 n) by done. by eexists _, _.
Qed.

(** C2 (amended): every search invocation carries, as its page, the
    value of [page if page else 1]: the integer 1 when the [page]
    parameter is absent or empty, and otherwise the parameter's own
    string, unparsed.  With a non-empty [q] and the configuration keys
    defined there is exactly one such invocation. *)
Theorem page_is_raw_string_or_one path request :
  path ∈ search_rules →
  (∀ c op, ECall c op ∈ trace (dispatch path request) →
     page_of op = Some (page_passed request)) ∧
  (truthy (dict_get (args request) "q") = true →
   is_Some (app_config !! "SOLR_INDEX_0") →
   is_Some (app_config !! "SOLR_INDEX_1") →
   is_Some (app_config !! "NUM_RECS_PER_PAGE") →
   map (λ co, page_of co.2) (calls (trace (dispatch path request))) =
   [Some (page_passed request)]) ∧
  (args request !! "page" = None ∨ args request !! "page" = Some "" →
   page_passed request = PInt 1) ∧
  (∀ s, args request !! "page" = Some s → s ≠ "" →
   page_passed request = PStr s).
Proof.
  intros Hp. repeat split.
  - intros c op H. by destruct (search_calls _ _ Hp _ _ H).
  - intros Hq H0 H1 Hn.
    destruct (search_trace _ _ Hp Hq H0 H1 Hn) as (c & op & Ht).
    rewrite Ht. simpl. f_equal.
    apply (search_calls _ request Hp c op). rewrite Ht, !elem_of_cons. by right; left.
  - apply page_passed_default.
  - apply page_passed_raw.
Qed.

(** C4 (amended): no search route ever consults the Input Form; the only
    gate before the query is the truth test on [q].  With a non-empty [q]
    (and the configuration keys defined) the route builds the client and
    invokes the search on the raw [q] at once; with an absent or empty
    [q] it renders the empty page and leaves no event. *)
Theorem search_runs_without_validation path request :
  path ∈ search_rules →
  (∀ raw, EValidate raw ∉ trace (dispatch path request)) ∧
  (truthy (dict_get (args request) "q") = true →
   is_Some (app_config !! "SOLR_INDEX_0") →
   is_Some (app_config !! "SOLR_INDEX_1") →
   is_Some (app_config !! "NUM_RECS_PER_PAGE") →
   ∃ c op, trace (dispatch path request) = [ENew c; ECall c op] ∧
           q_of op = Some (dict_get (args request) "q")) ∧
  (truthy (dict_get (args request) "q") = false →
   trace (dispatch path request) = [] ∧
   ∃ resp, outcome (dispatch path request) = inr resp ∧ empty_state resp).
Proof.
  intros Hp. split; [|split].
  - intros raw. apply search_rules_split in Hp as [Hp|Hp].
    + destruct (dispatch_plain _ request Hp) as [v ->].
      destruct (plain_trace (view_name path) v request)
        as [->|(url & n & _ & _ & _ & ->)].
      * apply not_elem_of_nil.
      * rewrite !elem_of_cons, elem_of_nil. by intros [?|[?|[]]].
    + destruct (dispatch_faceted _ request Hp) as [v ->].
      destruct (faceted_trace (view_name path) v request)
        as [->|(url & n & _ & _ & _ & ->)].
      * apply not_elem_of_nil.
      * rewrite !elem_of_cons, elem_of_nil. by intros [?|[?|[]]].
  - intros Hq H0 H1 Hn.
    destruct (search_trace _ _ Hp Hq H0 H1 Hn) as (c & op & Ht).
    exists c, op. split; [done|].
    apply (search_calls _ request Hp c op). rewrite Ht, !elem_of_cons. by right; left.
  - intros Hq. apply search_rules_split in Hp as [Hp|Hp].
    + destruct (dispatch_plain _ request Hp) as [v ->].
      rewrite plain_blank by done. split; [done|].
      eexists; split; [done|].
      unfold empty_state; simpl. by repeat constructor.
    + destruct (dispatch_faceted _ request Hp) as [v ->].
      rewrite faceted_blank by done. split; [done|].
      eexists; split; [done|].
      unfold empty_state; simpl. by repeat constructor.
Qed.


(** ** The views against one another *)

Ltac cases_view :=
  unfold_view; unfold mbind, mret, M_bind, M_ret;
  destruct (truthy (dict_get (args _) "q")); simpl;
  repeat (match goal with
          | |- context [?m !! ?k] => destruct (m !! k); simpl
          end).

Ltac cases_client :=
  repeat (match goal with
          | |- context [search_index0_impl ?s ?c ?q ?p ?l ?v] =>
              destruct (search_index0_impl s c q p l v) as [?|[? ?]]; simpl
          | |- context [search_index1_impl ?s ?c ?q ?fk ?fa ?p ?l ?v] =>
              destruct (search_index1_impl s c q fk fa p l v) as [?|[[? ?] ?]]; simpl
          end).

Lemma plain_erase l1 v1 l2 v2 r :
  erase_event <$> trace (plain l1 v1 r) = erase_event <$> trace (plain l2 v2 r).
Proof. cases_view; cases_client; reflexivity. Qed.

Lemma faceted_erase l1 v1 l2 v2 r :
  erase_event <$> trace (faceted l1 v1 r) = erase_event <$> trace (faceted l2 v2 r).
Proof. cases_view; cases_client; reflexivity. Qed.

Lemma plain_template l v r resp :
  outcome (plain l v r) = inr resp → template resp = "search0.html".
Proof.
  cases_view; try discriminate; [|by intros [= <-]].
  destruct (search_index0_impl _ _ _ _ _ _) as [e|[meta docs]]; simpl;
    [discriminate | by intros [= <-]].
Qed.

Lemma faceted_template l v r resp :
  outcome (faceted l v r) = inr resp → template resp = "search1.html".
Proof.
  cases_view; try discriminate; [|by intros [= <-]].
  destruct (search_index1_impl _ _ _ _ _ _ _ _) as [e|[[meta facets] docs]];
    simpl; [discriminate | by intros [= <-]].
Qed.

Lemma plain_blind l1 v1 l2 v2 r :
  label_blind services →
  outcome (plain l1 v1 r) = outcome (plain l2 v2 r).
Proof.
  intros [H0 _]. cases_view; try reflexivity.
  rewrite (H0 _ _ _ (PStr l1) (PInt v1) (PStr l2) (PInt v2)).
  cases_client; reflexivity.
Qed.

Lemma faceted_blind l1 v1 l2 v2 r :
  label_blind services →
  outcome (faceted l1 v1 r) = outcome (faceted l2 v2 r).
Proof.
  intros [_ H1]. cases_view; try reflexivity.
  rewrite (H1 _ _ _ _ _ (PStr l1) (PInt v1) (PStr l2) (PInt v2)).
  cases_client; reflexivity.
Qed.

(** C10: [search0], [search1] and [search2] are the one plain view at
    the labels and numbers ("search0", 0), ("search1", 1), ("search2", 2),
    and [search3], [search4] the one faceted view at ("search3", 1) and
    ("search4", 3).  On the same request they leave the same events once
    label and number are blanked (same client, same [q], same page), any
    page they render is "search0.html" (plain) or "search1.html"
    (faceted), and against a client that does not look at label and
    number they end with the same page or exception. *)
Theorem search_views_differ_in_label_only request :
  let s0 := search0 app_config services request in
  let s1 := search1 app_config services request in
  let s2 := search2 app_config services request in
  let s3 := search3 app_config services request in
  let s4 := search4 app_config services request in
  (s0 = plain "search0" 0 request ∧ s1 = plain "search1" 1 request ∧
   s2 = plain "search2" 2 request ∧
   s3 = faceted "search3" 1 request ∧ s4 = faceted "search4" 3 request) ∧
  (erase_event <$> trace s0 = erase_event <$> trace s1 ∧
   erase_event <$> trace s1 = erase_event <$> trace s2 ∧
   erase_event <$> trace s3 = erase_event <$> trace s4) ∧
  (∀ resp, (outcome s0 = inr resp ∨ outcome s1 = inr resp ∨
            outcome s2 = inr resp) → template resp = "search0.html") ∧
  (∀ resp, (outcome s3 = inr resp ∨ outcome s4 = inr resp) →
           template resp = "search1.html") ∧
  (label_blind services →
   outcome s0 = outcome s1 ∧ outcome s1 = outcome s2 ∧
   outcome s3 = outcome s4).
Proof.
  intros s0 s1 s2 s3 s4. subst s0 s1 s2 s3 s4.
  rewrite search0_plain, search1_plain, search2_plain,
    search3_faceted, search4_faceted.
  split; [done|]. split; [|split; [|split]].
  - auto using plain_erase, faceted_erase.
  - intros resp [H|[H|H]]; by apply plain_template in H.
  - intros resp [H|H]; by apply faceted_template in H.
  - intros Hb. auto using plain_blind, faceted_blind.
Qed.

End Properties.

(** ** The search client of the specification *)

(** C3: for a query on page [p >= 1] and a page size [pageSize], both
    searches of the specification's client request [pageSize] results
    starting at offset [(p-1) * pageSize]; that offset is not negative
    when the page size is not, and is 0 on the first page. *)
Theorem offset_is_page_minus_one_times_size
  (query : SearchClientSpec.Query) (pageSize : Z) :
  (1 ≤ SearchClientSpec.page query)%Z →
  let p := SearchClientSpec.page query in
  let plain := SearchClientSpec.searchPlain query pageSize in
  let faceted := SearchClientSpec.searchFaceted query pageSize in
  SearchClientSpec.offset plain = (p - 1) * pageSize ∧
  SearchClientSpec.limit plain = pageSize ∧
  SearchClientSpec.offset faceted = (p - 1) * pageSize ∧
  SearchClientSpec.limit faceted = pageSize ∧
  ((0 ≤ pageSize)%Z → (0 ≤ SearchClientSpec.offset plain)%Z) ∧
  (p = 1 → SearchClientSpec.offset plain = 0).
Proof.
  intros Hp p plain faceted. subst p plain faceted. simpl.
  repeat split; try reflexivity.
  - intros Hs. nia.
  - intros ->. lia.
Qed.

(** * The claims at sample requests *)

Lemma search3_is_search_rule : "/search3" ∈ search_rules.
Proof. unfold search_rules. repeat constructor. Defined.

Lemma search0_is_search_rule : "/search0" ∈ search_rules.
Proof. unfold search_rules. repeat constructor. Defined.

Lemma sample_config_defined :
  is_Some (sample_config !! "SOLR_INDEX_0") ∧
  is_Some (sample_config !! "SOLR_INDEX_1") ∧
  is_Some (sample_config !! "NUM_RECS_PER_PAGE").
Proof. repeat split; by eexists. Defined.

Lemma echo_label_blind : label_blind echo_services.
Proof. split; intros; reflexivity. Defined.

Lemma blank_query_no_documents_no_client_witness :
  trace (dispatch_request sample_config echo_services "/search3" blank_request) = [] ∧
  outcome (dispatch_request sample_config echo_services "/search3" blank_request) =
    inr (mkResponse "search1.html"
           [("meta", PNone); ("facets", PNone); ("docs", PNone)]).
Proof.
  destruct (blank_query_no_documents_no_client sample_config echo_services
              "/search3" blank_request search3_is_search_rule)
    as (Ht & resp & Ho & _).
  - right. reflexivity.
  - split; [exact Ht | reflexivity].
Defined.

Lemma route_operation_index_binding_witness :
  bindings (trace (dispatch_request sample_config echo_services
                     "/search3" cats_request)) =
  [(mkClient (PStr "http://localhost:8983/solr/index1") (PInt 10), KFaceted)].
Proof.
  apply (route_operation_index_binding sample_config echo_services
           "/search3" cats_request
           (PStr "http://localhost:8983/solr/index0")
           (PStr "http://localhost:8983/solr/index1") (PInt 10));
    [reflexivity | reflexivity | reflexivity | ].
  unfold faceted_rules. repeat constructor.
Defined.

Lemma view_label_is_route_name_witness :
  map (λ co, caller_of co.2)
    (calls (trace (dispatch_request sample_config echo_services
                     "/search3" cats_request))) =
  [Some (PStr "search3")].
Proof.
  destruct sample_config_defined as (H0 & H1 & Hn).
  apply (view_label_is_route_name sample_config echo_services
           "/search3" cats_request search3_is_search_rule);
    [reflexivity | exact H0 | exact H1 | exact Hn].
Defined.

Lemma post_equals_get_witness :
  dispatch_request sample_config echo_services "/search0"
    (mkRequest POST (query_string [("q", "cats")]) (query_string [("q", "dogs")])) =
  dispatch_request sample_config echo_services "/search0"
    (mkRequest GET (query_string [("q", "cats")]) ∅).
Proof.
  apply (post_equals_get sample_config echo_services "/search0"
           (query_string [("q", "cats")]) (query_string [("q", "dogs")]) ∅
           search0_is_search_rule).
Defined.

Lemma content_always_gets_raw_id_witness :
  trace (dispatch_request sample_config down_services "/content" doc_request) =
  [ENew (mkClient (PStr "http://localhost:8983/solr/index0") (PInt 10));
   ECall (mkClient (PStr "http://localhost:8983/solr/index0") (PInt 10))
     (Get (dict_get (args doc_request) "id"))].
Proof.
  apply (content_always_gets_raw_id sample_config down_services doc_request
           (PStr "http://localhost:8983/solr/index0") (PInt 10));
    reflexivity.
Defined.

Lemma page_is_raw_string_or_one_witness :
  map (λ co, page_of co.2)
    (calls (trace (dispatch_request sample_config echo_services
                     "/search0" cats_request))) =
  [Some (page_passed cats_request)].
Proof.
  destruct sample_config_defined as (H0 & H1 & Hn).
  apply (page_is_raw_string_or_one sample_config echo_services
           "/search0" cats_request search0_is_search_rule);
    [reflexivity | exact H0 | exact H1 | exact Hn].
Defined.

Lemma search_runs_without_validation_witness :
  ∃ c op,
    trace (dispatch_request sample_config echo_services
             "/search0" cats_request) = [ENew c; ECall c op] ∧
    q_of op = Some (dict_get (args cats_request) "q").
Proof.
  destruct sample_config_defined as (H0 & H1 & Hn).
  apply (search_runs_without_validation sample_config echo_services
           "/search0" cats_request search0_is_search_rule);
    [reflexivity | exact H0 | exact H1 | exact Hn].
Defined.

Lemma search_views_differ_in_label_only_witness :
  outcome (search0 sample_config echo_services cats_request) =
  outcome (search1 sample_config echo_services cats_request).
Proof.
  apply (search_views_differ_in_label_only sample_config echo_services
           cats_request).
  exact echo_label_blind.
Defined.

Lemma offset_is_page_minus_one_times_size_witness :
  SearchClientSpec.offset
    (SearchClientSpec.searchPlain
       (SearchClientSpec.mkQuery "cats" 2 None None) 10) = 10 ∧
  SearchClientSpec.limit
    (SearchClientSpec.searchPlain
       (SearchClientSpec.mkQuery "cats" 2 None None) 10) = 10.
Proof.
  destruct (offset_is_page_minus_one_times_size
              (SearchClientSpec.mkQuery "cats" 2 None None) 10)
    as (Ho & Hl & _).
  - simpl. lia.
  - split; [exact Ho | exact Hl].
Defined.

(** * Where the code departs from the specification *)

(** C2, as stated, fails: [GET /search0?q=cats&page=abc] passes the
    string ["abc"] on, not the integer 1, and [page=0] passes the string
    ["0"], which is no positive integer. *)
Lemma page_not_parsed_counterexample :
  ¬ passes_parsed_page cats_abc_request
      (trace (dispatch_request sample_config echo_services
                "/search0" cats_abc_request)) ∧
  ¬ passes_parsed_page cats_zero_request
      (trace (dispatch_request sample_config echo_services
                "/search0" cats_zero_request)).
Proof.
  split; intros H.
  - specialize (H (mkClient (PStr "http://localhost:8983/solr/index0") (PInt 10))
                  (SearchIndex0 (PStr "cats") (PStr "abc") (PStr "search0") (PInt 0))).
    assert (Some (PStr "abc") = Some (PInt 1)) as Hne; [|discriminate Hne].
    apply H. vm_compute. repeat constructor.
  - specialize (H (mkClient (PStr "http://localhost:8983/solr/index0") (PInt 10))
                  (SearchIndex0 (PStr "cats") (PStr "0") (PStr "search0") (PInt 0))).
    assert (Some (PStr "0") = Some (PInt 1)) as Hne; [|discriminate Hne].
    apply H. vm_compute. repeat constructor.
Qed.

(** C4, as stated, fails: [GET /search0?q=cats&page=2] invokes the
    client, and nothing was validated before it. *)
Lemma search_not_validated_counterexample :
  trace (dispatch_request sample_config echo_services "/search0" cats_request) =
  [ENew (mkClient (PStr "http://localhost:8983/solr/index0") (PInt 10));
   ECall (mkClient (PStr "http://localhost:8983/solr/index0") (PInt 10))
     (SearchIndex0 (PStr "cats") (PStr "2") (PStr "search0") (PInt 0))] ∧
  ¬ validates_before_search
      (trace (dispatch_request sample_config echo_services
                "/search0" cats_request)).
Proof.
  assert (trace (dispatch_request sample_config echo_services
                   "/search0" cats_request) =
          [ENew (mkClient (PStr "http://localhost:8983/solr/index0") (PInt 10));
           ECall (mkClient (PStr "http://localhost:8983/solr/index0") (PInt 10))
             (SearchIndex0 (PStr "cats") (PStr "2") (PStr "search0") (PInt 0))])
    as Ht by (vm_compute; reflexivity).
  split; [exact Ht|]. rewrite Ht. intros H.
  destruct (H 1%nat _ _ eq_refl) as (j & raw & Hj & Hlk).
  assert (j = 0%nat) as -> by lia. discriminate Hlk.
Qed.


(** The truth test of [if q:] rejects only the absent and the empty
    text: a [q] of one space is searched for as it stands. *)
Example whitespace_query_is_searched :
  calls (trace (dispatch_request sample_config echo_services "/search0"
                  (mkRequest GET (query_string [("q", " ")]) ∅))) =
  [(mkClient (PStr "http://localhost:8983/solr/index0") (PInt 10),
    SearchIndex0 (PStr " ") (PInt 1) (PStr "search0") (PInt 0))].
Proof. vm_compute. reflexivity. Qed.

(** A missing configuration key surfaces as [KeyError] before any client
    is built. *)
Example missing_key_raises :
  dispatch_request ∅ echo_services "/search0" cats_request =
  mkM [] (inl (KeyError "SOLR_INDEX_0")).
Proof. vm_compute. reflexivity. Qed.

(** [/content] accepts [GET] alone. *)
Example content_post_not_allowed :
  dispatch_request sample_config echo_services "/content"
    (mkRequest POST (query_string [("id", "doc-1")]) ∅) =
  mkM [] (inl (HTTPException 405)).
Proof. vm_compute. reflexivity. Qed.

(** * Further properties of the views *)

Section MoreProperties.

Variable app_config : gmap string pyval.
Variable services : Services.

Local Abbreviation dispatch := (dispatch_request app_config services).
Local Abbreviation plain := (plain_view app_config services).
Local Abbreviation faceted := (faceted_view app_config services).

(** ** Dispatch, uniformly in the request *)

Lemma dispatch_plain_all path :
  path ∈ plain_rules → ∃ v, ∀ r, dispatch path r = plain (view_name path) v r.
Proof.
  unfold plain_rules. rewrite !elem_of_cons, elem_of_nil.
  intros [->|[->|[->|[]]]]; [exists 0 | exists 1 | exists 2]; intros r;
    unfold dispatch_request; simpl; destruct (method r); simpl;
    auto using search0_plain, search1_plain, search2_plain.
Qed.

Lemma dispatch_faceted_all path :
  path ∈ faceted_rules → ∃ v, ∀ r, dispatch path r = faceted (view_name path) v r.
Proof.
  unfold faceted_rules. rewrite !elem_of_cons, elem_of_nil.
  intros [->|[->|[]]]; [exists 1 | exists 3]; intros r;
    unfold dispatch_request; simpl; destruct (method r); simpl;
    auto using search3_faceted, search4_faceted.
Qed.

Lemma dispatch_landing path r :
  path ∈ landing_rules → method r = GET →
  dispatch path r = mkM [] (inr (mkResponse "index.html" [])).
Proof.
  unfold landing_rules. rewrite !elem_of_cons, elem_of_nil.
  intros [->|[->|[]]] Hm; unfold dispatch_request; simpl; by rewrite Hm.
Qed.

Lemma dispatch_get_only path r :
  path ∈ get_only_rules → method r = POST →
  dispatch path r = mkM [] (inl (HTTPException 405)).
Proof.
  unfold get_only_rules. rewrite !elem_of_cons, elem_of_nil.
  intros [->|[->|[->|[]]]] Hm; unfold dispatch_request; simpl; by rewrite Hm.
Qed.

(** ** Runs that stop at a missing configuration key *)

Lemma plain_no_index caller version r :
  truthy (dict_get (args r) "q") = true →
  app_config !! "SOLR_INDEX_0" = None →
  plain caller version r = mkM [] (inl (KeyError "SOLR_INDEX_0")).
Proof. intros Hq H0. unfold plain_view, config. by rewrite Hq, H0. Qed.

Lemma plain_no_size caller version r url :
  truthy (dict_get (args r) "q") = true →
  app_config !! "SOLR_INDEX_0" = Some url →
  app_config !! "NUM_RECS_PER_PAGE" = None →
  plain caller version r = mkM [] (inl (KeyError "NUM_RECS_PER_PAGE")).
Proof. intros Hq H0 Hn. unfold plain_view, config. by rewrite Hq, H0, Hn. Qed.

Lemma faceted_no_index caller version r :
  truthy (dict_get (args r) "q") = true →
  app_config !! "SOLR_INDEX_1" = None →
  faceted caller version r = mkM [] (inl (KeyError "SOLR_INDEX_1")).
Proof. intros Hq H1. unfold faceted_view, config. by rewrite Hq, H1. Qed.

Lemma faceted_no_size caller version r url :
  truthy (dict_get (args r) "q") = true →
  app_config !! "SOLR_INDEX_1" = Some url →
  app_config !! "NUM_RECS_PER_PAGE" = None →
  faceted caller version r = mkM [] (inl (KeyError "NUM_RECS_PER_PAGE")).
Proof. intros Hq H1 Hn. unfold faceted_view, config. by rewrite Hq, H1, Hn. Qed.

Lemma content_no_index r :
  app_config !! "SOLR_INDEX_0" = None →
  content app_config services r = mkM [] (inl (KeyError "SOLR_INDEX_0")).
Proof. intros H0. unfold content, config. by rewrite H0. Qed.

Lemma content_no_size r url :
  app_config !! "SOLR_INDEX_0" = Some url →
  app_config !! "NUM_RECS_PER_PAGE" = None →
  content app_config services r = mkM [] (inl (KeyError "NUM_RECS_PER_PAGE")).
Proof. intros H0 Hn. unfold content, config. by rewrite H0, Hn. Qed.

(** ** The landing page and the GET-only rules *)

(** X1: [GET /] and [GET /index] render "index.html" with an empty
    context and leave no event, whatever the query string, the
    configuration and the client: the landing page is served even with
    no configuration at all. *)
Theorem landing_page_needs_nothing path request :
  path ∈ landing_rules → method request = GET →
  dispatch path request = mkM [] (inr (mkResponse "index.html" [])) ∧
  dispatch path request =
    dispatch_request ∅ down_services path (mkRequest GET ∅ ∅).
Proof.
  intros Hp Hm. split; [by apply dispatch_landing|].
  rewrite dispatch_landing by done.
  unfold landing_rules in Hp. rewrite !elem_of_cons, elem_of_nil in Hp.
  by destruct Hp as [->|[->|[]]].
Qed.

(** X2: the rules registered for [GET] alone ([/], [/index],
    [/content]) answer a [POST] with 405 Method Not Allowed before any
    view runs: no configuration key is read, no client is built, and this
    holds even when the configuration is empty. *)
Theorem get_only_rules_reject_post path request :
  path ∈ get_only_rules → method request = POST →
  outcome (dispatch path request) = inl (HTTPException 405) ∧
  trace (dispatch path request) = [] ∧
  wsgi_app true app_config services path request = mkHttp 405 (ErrorPage 405).
Proof.
  intros Hp Hm. unfold wsgi_app. by rewrite dispatch_get_only.
Qed.

(** ** Missing configuration keys *)

(** X3: a view that needs a client reads the index key first and the
    page size second, and a missing key ends the request with [KeyError]
    on that key before any client is built.  The plain routes (with a
    non-empty [q]) and [GET /content] read [SOLR_INDEX_0], the faceted
    routes [SOLR_INDEX_1]. *)
Theorem missing_key_is_key_error path request :
  (path ∈ plain_rules ∧ truthy (dict_get (args request) "q") = true ∨
   path = "/content" ∧ method request = GET →
   (app_config !! "SOLR_INDEX_0" = None →
    dispatch path request = mkM [] (inl (KeyError "SOLR_INDEX_0"))) ∧
   (is_Some (app_config !! "SOLR_INDEX_0") →
    app_config !! "NUM_RECS_PER_PAGE" = None →
    dispatch path request = mkM [] (inl (KeyError "NUM_RECS_PER_PAGE")))) ∧
  (path ∈ faceted_rules ∧ truthy (dict_get (args request) "q") = true →
   (app_config !! "SOLR_INDEX_1" = None →
    dispatch path request = mkM [] (inl (KeyError "SOLR_INDEX_1"))) ∧
   (is_Some (app_config !! "SOLR_INDEX_1") →
    app_config !! "NUM_RECS_PER_PAGE" = None →
    dispatch path request = mkM [] (inl (KeyError "NUM_RECS_PER_PAGE")))).
Proof.
  split.
  - intros [[Hp Hq]|[-> Hm]].
    + destruct (dispatch_plain_all _ Hp) as [v Hv]. rewrite Hv. split.
      * by apply plain_no_index.
      * intros [url H0] Hn. by apply (plain_no_size _ _ _ url).
    + rewrite dispatch_content by done. split.
      * by apply content_no_index.
      * intros [url H0] Hn. by apply (content_no_size _ url).
  - intros [Hp Hq].
    destruct (dispatch_faceted_all _ Hp) as [v Hv]. rewrite Hv. split.
    + by apply faceted_no_index.
    + intros [url H1] Hn. by apply (faceted_no_size _ _ _ url).
Qed.

(** ** What a search does with the client's answer *)

(** X4: a search route has no error handling of its own: when the one
    search it invokes raises, the request ends with that very exception
    and no page is rendered. *)
Theorem search_exception_propagates path request c e :
  (∀ q page caller version,
     path ∈ plain_rules →
     ECall c (SearchIndex0 q page caller version) ∈ trace (dispatch path request) →
     search_index0_impl services c q page caller version = inl e →
     outcome (dispatch path request) = inl e) ∧
  (∀ q fk fa page caller version,
     path ∈ faceted_rules →
     ECall c (SearchIndex1 q fk fa page caller version)
       ∈ trace (dispatch path request) →
     search_index1_impl services c q fk fa page caller version = inl e →
     outcome (dispatch path request) = inl e).
Proof.
  split.
  - intros q page caller version Hp Hin He.
    destruct (dispatch_plain_all _ Hp) as [v Hv]. rewrite Hv in *.
    destruct (plain_trace app_config services (view_name path) v request)
      as [Ht|(url & n & Hq & H0 & Hn & Ht)]; rewrite Ht in Hin.
    + by apply elem_of_nil in Hin.
    + rewrite !elem_of_cons, elem_of_nil in Hin.
      destruct Hin as [Hin|[Hin|[]]]; [done|]. injection Hin as -> -> -> -> ->.
      rewrite (plain_query _ _ _ _ _ url n) by done. simpl. by rewrite He.
  - intros q fk fa page caller version Hp Hin He.
    destruct (dispatch_faceted_all _ Hp) as [v Hv]. rewrite Hv in *.
    destruct (faceted_trace app_config services (view_name path) v request)
      as [Ht|(url & n & Hq & H1 & Hn & Ht)]; rewrite Ht in Hin.
    + by apply elem_of_nil in Hin.
    + rewrite !elem_of_cons, elem_of_nil in Hin.
      destruct Hin as [Hin|[Hin|[]]]; [done|].
      injection Hin as -> -> -> -> -> -> ->.
      rewrite (faceted_query _ _ _ _ _ url n) by done. simpl. by rewrite He.
Qed.

(** X5: a search route hands the client's answer to the template
    untouched: the page is "search0.html" with [meta] and [docs] exactly
    as [search_index0] returned them, or "search1.html" with [meta],
    [facets] and [docs] exactly as [search_index1] returned them. *)
Theorem search_answer_is_rendered_as_is path request c :
  (∀ q page caller version meta docs,
     path ∈ plain_rules →
     ECall c (SearchIndex0 q page caller version) ∈ trace (dispatch path request) →
     search_index0_impl services c q page caller version = inr (meta, docs) →
     outcome (dispatch path request) =
       inr (mkResponse "search0.html" [("meta", meta); ("docs", docs)])) ∧
  (∀ q fk fa page caller version meta facets docs,
     path ∈ faceted_rules →
     ECall c (SearchIndex1 q fk fa page caller version)
       ∈ trace (dispatch path request) →
     search_index1_impl services c q fk fa page caller version =
       inr (meta, facets, docs) →
     outcome (dispatch path request) =
       inr (mkResponse "search1.html"
              [("meta", meta); ("facets", facets); ("docs", docs)])).
Proof.
  split.
  - intros q page caller version meta docs Hp Hin He.
    destruct (dispatch_plain_all _ Hp) as [v Hv]. rewrite Hv in *.
    destruct (plain_trace app_config services (view_name path) v request)
      as [Ht|(url & n & Hq & H0 & Hn & Ht)]; rewrite Ht in Hin.
    + by apply elem_of_nil in Hin.
    + rewrite !elem_of_cons, elem_of_nil in Hin.
      destruct Hin as [Hin|[Hin|[]]]; [done|]. injection Hin as -> -> -> -> ->.
      rewrite (plain_query _ _ _ _ _ url n) by done. simpl. by rewrite He.
  - intros q fk fa page caller version meta facets docs Hp Hin He.
    destruct (dispatch_faceted_all _ Hp) as [v Hv]. rewrite Hv in *.
    destruct (faceted_trace app_config services (view_name path) v request)
      as [Ht|(url & n & Hq & H1 & Hn & Ht)]; rewrite Ht in Hin.
    + by apply elem_of_nil in Hin.
    + rewrite !elem_of_cons, elem_of_nil in Hin.
      destruct Hin as [Hin|[Hin|[]]]; [done|].
      injection Hin as -> -> -> -> -> -> ->.
      rewrite (faceted_query _ _ _ _ _ url n) by done. simpl. by rewrite He.
Qed.

(** ** What a view reads *)

Lemma plain_same_parameters caller version r1 r2 :
  args r1 !! "q" = args r2 !! "q" →
  args r1 !! "page" = args r2 !! "page" →
  plain caller version r1 = plain caller version r2.
Proof.
  intros Hq Hpage. unfold plain_view, page_passed, dict_get.
  by rewrite Hq, Hpage.
Qed.

Lemma faceted_same_parameters caller version r1 r2 :
  args r1 !! "q" = args r2 !! "q" →
  args r1 !! "fk" = args r2 !! "fk" →
  args r1 !! "fa" = args r2 !! "fa" →
  args r1 !! "page" = args r2 !! "page" →
  faceted caller version r1 = faceted caller version r2.
Proof.
  intros Hq Hfk Hfa Hpage. unfold faceted_view, page_passed, dict_get.
  by rewrite Hq, Hfk, Hfa, Hpage.
Qed.

(** X6: a view reads only its own parameters of the query string.  Two
    requests that agree on [q] and [page] get the same result from a
    plain route, whatever else they carry ([fk], [fa], a body, the
    method); two that agree on [q], [fk], [fa] and [page] get the same
    result from a faceted route; two of the same method that agree on
    [id] get the same result from [/content]. *)
Theorem views_read_only_their_parameters path r1 r2 :
  (path ∈ plain_rules →
   args r1 !! "q" = args r2 !! "q" →
   args r1 !! "page" = args r2 !! "page" →
   dispatch path r1 = dispatch path r2) ∧
  (path ∈ faceted_rules →
   args r1 !! "q" = args r2 !! "q" →
   args r1 !! "fk" = args r2 !! "fk" →
   args r1 !! "fa" = args r2 !! "fa" →
   args r1 !! "page" = args r2 !! "page" →
   dispatch path r1 = dispatch path r2) ∧
  (path = "/content" →
   method r1 = method r2 →
   args r1 !! "id" = args r2 !! "id" →
   dispatch path r1 = dispatch path r2).
Proof.
  split; [|split].
  - intros Hp Hq Hpage. destruct (dispatch_plain_all _ Hp) as [v Hv].
    rewrite !Hv. by apply plain_same_parameters.
  - intros Hp Hq Hfk Hfa Hpage. destruct (dispatch_faceted_all _ Hp) as [v Hv].
    rewrite !Hv. by apply faceted_same_parameters.
  - intros -> Hm Hid. unfold dispatch_request. simpl. rewrite Hm.
    destruct (method r2); simpl; [|done].
    unfold content, dict_get. by rewrite Hid.
Qed.

(** ** One client, one call *)

Lemma content_trace r :
  trace (content app_config services r) = [] ∨
  ∃ url n,
    trace (content app_config services r) =
      [ENew (mkClient url n);
       ECall (mkClient url n) (Get (dict_get (args r) "id"))].
Proof.
  destruct (app_config !! "SOLR_INDEX_0") as [url|] eqn:H0.
  - destruct (app_config !! "NUM_RECS_PER_PAGE") as [n|] eqn:Hn.
    + right. exists url, n. by rewrite (content_run _ _ _ url n).
    + left. by rewrite (content_no_size _ url).
  - left. by rewrite content_no_index.
Qed.

(** The shape every trace of a registered rule has. *)
Lemma dispatch_trace path request :
  path ∈ (λ entry, entry.1.1) <$> url_map app_config services →
  trace (dispatch path request) = [] ∨
  ∃ c op, trace (dispatch path request) = [ENew c; ECall c op].
Proof.
  simpl. rewrite !elem_of_cons, elem_of_nil.
  intros [->|[->|[->|Hp]]].
  - left. unfold dispatch_request. simpl. by destruct (method request).
  - left. unfold dispatch_request. simpl. by destruct (method request).
  - unfold dispatch_request. simpl. destruct (method request); simpl.
    + destruct (content_trace request) as [Ht|(url & n & Ht)];
        [by left | right; by eexists _, _].
    + by left.
  - assert (path ∈ search_rules) as Hs.
    { unfold search_rules. rewrite !elem_of_cons, elem_of_nil. tauto. }
    apply search_rules_split in Hs as [Hs|Hs].
    + destruct (dispatch_plain_all _ Hs) as [v Hv]. rewrite Hv.
      destruct (plain_trace app_config services (view_name path) v request)
        as [Ht|(url & n & _ & _ & _ & Ht)];
        [by left | right; by eexists _, _].
    + destruct (dispatch_faceted_all _ Hs) as [v Hv]. rewrite Hv.
      destruct (faceted_trace app_config services (view_name path) v request)
        as [Ht|(url & n & _ & _ & _ & Ht)];
        [by left | right; by eexists _, _].
Qed.

(** X7: serving a request on any registered rule builds at most one
    client and invokes at most one operation: whenever an operation is
    invoked, the whole run is the construction of a client followed by
    that one invocation on it.  Nothing is retried, no client is reused,
    and the Input Form is consulted on no rule. *)
Theorem at_most_one_client_call path request :
  path ∈ (λ entry, entry.1.1) <$> url_map app_config services →
  (List.length (calls (trace (dispatch path request))) ≤ 1)%nat ∧
  (∀ c op, ECall c op ∈ trace (dispatch path request) →
     trace (dispatch path request) = [ENew c; ECall c op]) ∧
  (∀ raw, EValidate raw ∉ trace (dispatch path request)).
Proof.
  intros Hp.
  destruct (dispatch_trace _ request Hp) as [Ht|(c' & op' & Ht)]; rewrite Ht.
  - repeat split.
    + simpl. lia.
    + by intros c op ?%elem_of_nil.
    + intros raw. apply not_elem_of_nil.
  - repeat split.
    + simpl. lia.
    + intros c op. rewrite !elem_of_cons, elem_of_nil.
      intros [H|[H|[]]]; [done|]. by injection H as -> ->.
    + intros raw. rewrite !elem_of_cons, elem_of_nil. by intros [?|[?|[]]].
Qed.

(** ** What the client is never handed *)

Lemma blank_query_leaves_no_event path request :
  path ∈ search_rules → blank_q request →
  trace (dispatch path request) = [].
Proof.
  intros Hp Hq. apply blank_q_falsy in Hq.
  apply search_rules_split in Hp as [Hp|Hp].
  - destruct (dispatch_plain_all _ Hp) as [v Hv]. rewrite Hv.
    by rewrite plain_blank.
  - destruct (dispatch_faceted_all _ Hp) as [v Hv]. rewrite Hv.
    by rewrite faceted_blank.
Qed.

Lemma page_passed_truthy request :
  truthy (page_passed request) = true ∧
  (page_passed request = PInt 1 ∨
   ∃ s, page_passed request = PStr s ∧ s ≠ "").
Proof.
  unfold page_passed.
  destruct (truthy (dict_get (args request) "page")) eqn:Hp.
  - split; [done|]. right. unfold dict_get in *.
    destruct (args request !! "page") as [s|]; [|done].
    exists s. split; [done|]. by intros ->.
  - split; [done | by left].
Qed.

(** X8: a search is never invoked on an empty text or an empty page: on
    every search route the [q] handed to the client is a non-empty
    string, and the page is the integer 1 or a non-empty string, never
    [None]. *)
Theorem search_arguments_are_never_empty path request c op :
  path ∈ search_rules →
  ECall c op ∈ trace (dispatch path request) →
  (∃ s, q_of op = Some (PStr s) ∧ s ≠ "" ∧ args request !! "q" = Some s) ∧
  (∃ p, page_of op = Some p ∧ truthy p = true ∧
        (p = PInt 1 ∨ ∃ s, p = PStr s ∧ s ≠ "")).
Proof.
  intros Hp Hin.
  destruct (search_calls app_config services _ _ Hp _ _ Hin) as [Hq Hpage].
  assert (truthy (dict_get (args request) "q") = true) as Ht.
  { destruct (truthy (dict_get (args request) "q")) eqn:Hb; [done|].
    apply blank_q_falsy in Hb.
    rewrite (blank_query_leaves_no_event _ _ Hp Hb) in Hin. by apply elem_of_nil in Hin. }
  split.
  - unfold dict_get in *. destruct (args request !! "q") as [s|]; [|done].
    exists s. split; [done|]. split; [|done]. by intros ->.
  - exists (page_passed request). split; [done|]. apply page_passed_truthy.
Qed.

(** ** Responses as the client sees them *)



End MoreProperties.

(** ** What a view reads of the configuration *)

(** X9: a view reads two configuration keys and no other: the page size
    and its own index key.  Under two configurations that agree on
    [NUM_RECS_PER_PAGE] and on [SOLR_INDEX_0], the plain routes and
    [/content] behave alike; under two that agree on [NUM_RECS_PER_PAGE]
    and [SOLR_INDEX_1], the faceted routes do.  Adding, changing or
    removing any other setting changes nothing. *)
Theorem views_read_only_their_keys
  (cfg1 cfg2 : gmap string pyval) (services : Services)
  (path : string) (request : Request) :
  cfg1 !! "NUM_RECS_PER_PAGE" = cfg2 !! "NUM_RECS_PER_PAGE" →
  (path ∈ plain_rules ∨ path = "/content" →
   cfg1 !! "SOLR_INDEX_0" = cfg2 !! "SOLR_INDEX_0" →
   dispatch_request cfg1 services path request =
   dispatch_request cfg2 services path request) ∧
  (path ∈ faceted_rules →
   cfg1 !! "SOLR_INDEX_1" = cfg2 !! "SOLR_INDEX_1" →
   dispatch_request cfg1 services path request =
   dispatch_request cfg2 services path request).
Proof.
  intros Hn. split.
  - intros [Hp| ->] H0.
    + unfold plain_rules in Hp. rewrite !elem_of_cons, elem_of_nil in Hp.
      destruct Hp as [->|[->|[->|[]]]]; unfold dispatch_request; simpl;
        destruct (method request); simpl;
        rewrite ?search0_plain, ?search1_plain, ?search2_plain;
        unfold plain_view, config; by rewrite H0, Hn.
    + unfold dispatch_request; simpl. destruct (method request); simpl; [|done].
      unfold content, config. by rewrite H0, Hn.
  - intros Hp H1.
    unfold faceted_rules in Hp. rewrite !elem_of_cons, elem_of_nil in Hp.
    destruct Hp as [->|[->|[]]]; unfold dispatch_request; simpl;
      destruct (method request); simpl;
      rewrite ?search3_faceted, ?search4_faceted;
      unfold faceted_view, config; by rewrite H1, Hn.
Qed.

(** * The further properties at sample requests *)

Lemma landing_page_needs_nothing_witness :
  dispatch_request sample_config echo_services "/index" cats_request =
  mkM [] (inr (mkResponse "index.html" [])).
Proof.
  destruct (landing_page_needs_nothing sample_config echo_services
              "/index" cats_request) as (H & _).
  - unfold landing_rules. repeat constructor.
  - reflexivity.
  - exact H.
Defined.

Lemma get_only_rules_reject_post_witness :
  outcome (dispatch_request ∅ down_services "/content" blank_request) =
  inl (HTTPException 405).
Proof.
  destruct (get_only_rules_reject_post ∅ down_services
              "/content" blank_request) as (H & _).
  - unfold get_only_rules. repeat constructor.
  - reflexivity.
  - exact H.
Defined.

Lemma missing_key_is_key_error_witness :
  dispatch_request (delete "NUM_RECS_PER_PAGE" sample_config) echo_services
    "/search3" cats_request =
  mkM [] (inl (KeyError "NUM_RECS_PER_PAGE")).
Proof.
  destruct (missing_key_is_key_error
              (delete "NUM_RECS_PER_PAGE" sample_config) echo_services
              "/search3" cats_request) as (_ & H).
  destruct H as (_ & H).
  - split; [unfold faceted_rules; repeat constructor | reflexivity].
  - apply H; [by eexists | reflexivity].
Defined.

Lemma search_exception_propagates_witness :
  outcome (dispatch_request sample_config down_services "/search0" cats_request) =
  inl (Exception "ConnectionError: solr unreachable").
Proof.
  destruct (search_exception_propagates sample_config down_services
              "/search0" cats_request index0_client
              (Exception "ConnectionError: solr unreachable")) as (H & _).
  apply (H (PStr "cats") (PStr "2") (PStr "search0") (PInt 0)).
  - unfold plain_rules. repeat constructor.
  - vm_compute. repeat constructor.
  - reflexivity.
Defined.

Lemma search_answer_is_rendered_as_is_witness :
  outcome (dispatch_request sample_config echo_services "/search3" cats_request) =
  inr (mkResponse "search1.html"
         [("meta", PDict [("q", PStr "cats"); ("page", PStr "2")]);
          ("facets", PDict [("field", PNone)]);
          ("docs", PList [PDict [("id", PStr "doc-1")]])]).
Proof.
  destruct (search_answer_is_rendered_as_is sample_config echo_services
              "/search3" cats_request index1_client) as (_ & H).
  apply (H (PStr "cats") PNone PNone (PStr "2") (PStr "search3") (PInt 1)).
  - unfold faceted_rules. repeat constructor.
  - vm_compute. repeat constructor.
  - reflexivity.
Defined.

Lemma views_read_only_their_parameters_witness :
  dispatch_request sample_config echo_services "/search0" cats_request =
  dispatch_request sample_config echo_services "/search0"
    (mkRequest POST
       (query_string [("q", "cats"); ("page", "2"); ("fk", "color")])
       (query_string [("q", "dogs")])).
Proof.
  destruct (views_read_only_their_parameters sample_config echo_services
              "/search0" cats_request
              (mkRequest POST
                 (query_string [("q", "cats"); ("page", "2"); ("fk", "color")])
                 (query_string [("q", "dogs")]))) as (H & _).
  apply H.
  - unfold plain_rules. repeat constructor.
  - reflexivity.
  - reflexivity.
Defined.

Lemma at_most_one_client_call_witness :
  (List.length (calls (trace (dispatch_request sample_config echo_services
                                "/content" doc_request))) ≤ 1)%nat.
Proof.
  destruct (at_most_one_client_call sample_config echo_services
              "/content" doc_request) as (H & _).
  - simpl. repeat constructor.
  - exact H.
Defined.

Lemma search_arguments_are_never_empty_witness :
  ∃ s, q_of (SearchIndex0 (PStr "cats") (PStr "2") (PStr "search0") (PInt 0)) =
         Some (PStr s) ∧ s ≠ "" ∧ args cats_request !! "q" = Some s.
Proof.
  destruct (search_arguments_are_never_empty sample_config echo_services
              "/search0" cats_request index0_client
              (SearchIndex0 (PStr "cats") (PStr "2") (PStr "search0") (PInt 0)))
    as (H & _).
  - exact search0_is_search_rule.
  - vm_compute. repeat constructor.
  - exact H.
Defined.

Lemma views_read_only_their_keys_witness :
  dispatch_request
    (<["DEBUG" := PInt 1]> (delete "SOLR_INDEX_1" sample_config))
    echo_services "/search0" cats_request =
  dispatch_request sample_config echo_services "/search0" cats_request.
Proof.
  destruct (views_read_only_their_keys
              (<["DEBUG" := PInt 1]> (delete "SOLR_INDEX_1" sample_config))
              sample_config echo_services "/search0" cats_request) as (H & _).
  - reflexivity.
  - apply H.
    + left. unfold plain_rules. repeat constructor.
    + reflexivity.
Defined.


(** C1, as stated, fails: a [q] of one space is blank, yet
    [GET /search0?q=%20] builds a client, searches for the space and
    renders the documents found. *)
Lemma blank_query_counterexample :
  absent_or_blank_q whitespace_request ∧
  ¬ no_documents_no_client
      (dispatch_request sample_config echo_services "/search0"
         whitespace_request) ∧
  calls (trace (dispatch_request sample_config echo_services "/search0"
                  whitespace_request)) =
    [(index0_client,
      SearchIndex0 (PStr " ") (PInt 1) (PStr "search0") (PInt 0))] ∧
  outcome (dispatch_request sample_config echo_services "/search0"
             whitespace_request) =
    inr (mkResponse "search0.html"
           [("meta", PDict [("q", PStr " "); ("page", PInt 1)]);
            ("docs", PList [PDict [("id", PStr "doc-1")]])]).
Proof.
  split; [reflexivity|]. split; [|split; vm_compute; reflexivity].
  intros [Ht _]. vm_compute in Ht. discriminate Ht.
Qed.

(** A bad-request key error raised under [debug=True] is trapped and
    answered like any unhandled exception; with debug off it is the 400
    page. *)
Example key_error_is_trapped_in_debug :
  finalize_request true (inl (BadRequestKeyError "id")) =
    mkHttp 500 (Traceback (BadRequestKeyError "id")) ∧
  finalize_request false (inl (BadRequestKeyError "id")) =
    mkHttp 400 (ErrorPage 400) ∧
  finalize_request true (inl (HTTPException 400)) =
    mkHttp 400 (ErrorPage 400).
Proof. repeat split. Qed.
